(** * Staged load shape and SageMaker client of the locust benchmark

    Shallow embedding of [locust/locust_autoscaling_benchmark_sm.py]:
    the [StagesShape.tick] scan over the stage table, the
    [SageMakerClient] constructor and its [send] method,
    [SageMakerUser.__init__] and the task
    [SimpleSendRequest.send_request].

    Numbers.  The run time handed to [tick] is a Python float and the
    stage boundaries are Python ints; Python compares the two exactly,
    so both are embedded in [Q] (every finite float is a rational, and
    a run time is a difference of two clock readings, hence finite).
    User counts and model counts are Python ints, embedded in [Z].
    Float arithmetic ([send] subtracts two counter readings and
    multiplies by 1000) rounds to the nearest IEEE 754 double, ties to
    even, after each operation. *)

From Stdlib Require Import QArith Qround Qpower ZArith List Lia Sorted.
From stdpp Require Import gmap strings list fin_maps pretty.

Local Open Scope Q_scope.

(** ** Python values and exceptions *)

(** The exception classes the program can meet.  The first four derive
    from [BaseException] only; all the others derive from [Exception]. *)
Inductive ExcClass : Type :=
  | SystemExit
  | KeyboardInterrupt
  | GeneratorExit
  | GreenletExit
  | KeyError
  | NameError
  | ValueError
  | TypeError
  | OSError
  | ClientError
  | OtherException (name : string).

Record PyExc : Type := mkExc { exc_class : ExcClass; exc_arg : string }.

(** [isinstance(e, Exception)]: what an [except Exception] clause catches. *)
Definition is_Exception (e : PyExc) : bool :=
  match exc_class e with
  | SystemExit | KeyboardInterrupt | GeneratorExit | GreenletExit => false
  | _ => true
  end.

(** Outcome of a Python call: a returned value or a raised exception. *)
Inductive Result (A : Type) : Type :=
  | Ok (a : A)
  | Raise (e : PyExc).
Arguments Ok {A} a.
Arguments Raise {A} e.

(** Sequencing: an exception raised by the first call skips the rest. *)
#[global] Instance Result_ret : MRet Result := fun A a => Ok a.
#[global] Instance Result_bind : MBind Result := fun A B k r =>
  match r with
  | Ok a => k a
  | Raise e => Raise e
  end.

(** ** The stage table *)

Module Shape.

(** One entry of [StagesShape.stages]:
    [{"duration": d, "users": u, "spawn_rate": r}]. *)
Record Stage : Type := mkStage { duration : Q; users : Z; spawn_rate : Q }.

(** [run_time < stage["duration"]] as a boolean test. *)
Definition Qltb (x y : Q) : bool := negb (Qle_bool y x).

(** The class attribute [StagesShape.stages]. *)
Definition stages : list Stage :=
  [ mkStage 120 2 2;
    mkStage 240 4 2;
    mkStage 360 6 2;
    mkStage 480 8 2;
    mkStage 600 10 2;
    mkStage 720 12 2;
    mkStage 840 14 2;
    mkStage 960 16 2;
    mkStage 1080 18 2;
    mkStage 1200 20 2 ].

(** A shape object; [shape_stages] is what [self.stages] evaluates to
    (the class attribute, or whatever a subclass or instance rebinds it
    to). *)
Record StagesShape : Type := mkShape { shape_stages : list Stage }.

(** [StagesShape(...)]: the class defines no [__init__] and the table
    is never inspected when the object is built. *)
Definition StagesShape_init (table : list Stage) : Result StagesShape :=
  Ok (mkShape table).

(** The [for stage in self.stages] loop of [tick]: the first stage with
    [run_time < stage["duration"]] yields [(users, spawn_rate)]; falling
    off the end yields [None]. *)
Fixpoint tick_loop (table : list Stage) (run_time : Q) : option (Z * Q) :=
  match table with
  | [] => None
  | stage :: rest =>
      if Qltb run_time (duration stage)
      then Some (users stage, spawn_rate stage)
      else tick_loop rest run_time
  end.

(** [StagesShape.tick]; [run_time] is the value of
    [self.get_run_time()]. *)
Definition tick (self : StagesShape) (run_time : Q) : option (Z * Q) :=
  tick_loop (shape_stages self) run_time.

(** The same loop, instrumented to report the position in the table at
    which it returns. *)
Fixpoint resolve_index (table : list Stage) (run_time : Q) : option nat :=
  match table with
  | [] => None
  | stage :: rest =>
      if Qltb run_time (duration stage)
      then Some 0%nat
      else option_map S (resolve_index rest run_time)
  end.

(** The stage the loop returns from: the table entry at
    [resolve_index]. *)
Definition resolve (table : list Stage) (run_time : Q) : option Stage :=
  match resolve_index table run_time with
  | Some i => table !! i
  | None => None
  end.

Definition tick_data (stage : Stage) : Z * Q := (users stage, spawn_rate stage).

(** Boundaries strictly increase along the table. *)
Definition increasing (table : list Stage) : Prop :=
  StronglySorted (fun a b => duration a < duration b) table.

(** Lower end of the window of stage [i]: nothing for the first stage,
    the previous stage's boundary otherwise.  [strict] selects an open
    ([<]) or closed ([<=]) lower end. *)
Definition after_previous (strict : bool) (table : list Stage) (i : nat) (t : Q) : Prop :=
  match i with
  | O => True
  | S j =>
      match table !! j with
      | Some prev => if strict then duration prev < t else duration prev <= t
      | None => True
      end
  end.

(** The three-stage table with boundaries 120, 240, 360 and targets
    2, 4, 6; the spawn rates are free. *)
Definition table3 (r0 r1 r2 : Q) : list Stage :=
  [ mkStage 120 2 r0; mkStage 240 4 r1; mkStage 360 6 r2 ].

End Shape.

Import Shape.

(** ** The SageMaker client *)

Module Client.

(** The Python values that reach the module globals and the request
    event. *)
Inductive PyVal : Type :=
  | VNone
  | VStr (s : string)
  | VInt (z : Z)
  | VFloat (q : Q)
  | VInf (negative : bool)
  | VEmptyDict
  | VExc (e : PyExc)
  | VObject (name : string).

(** A botocore client, as far as this module uses it:
    [invoke_endpoint(EndpointName, Body, ContentType, TargetModel)]. *)
Record BotoClient : Type := mkBotoClient {
  invoke_endpoint : string -> PyVal -> PyVal -> string -> Result PyVal
}.

(** A boto3 session, as far as this module uses it:
    [client(service_name)]. *)
Record Session : Type := mkSession {
  session_client : string -> Result BotoClient
}.

Record SageMakerClient : Type := mkSageMakerClient {
  session : Session;
  payload : PyVal;
  client : BotoClient;
  content_type : PyVal
}.

(** What one call reads from the outside world: the wall clock, the two
    readings of the performance counter, and the entropy that
    [random.randint] consumes. *)
Record Runtime : Type := mkRuntime {
  time_time : Q;
  perf_counter : nat -> Q;
  random_draw : Z
}.

(** The names bound once the module body has run: the imports, the
    [content_type] string and the four classes. *)
Definition module_globals : gmap string PyVal :=
  list_to_map
    [ ("boto3", VObject "module"); ("Config", VObject "class");
      ("os", VObject "module"); ("sys", VObject "module");
      ("json", VObject "module"); ("User", VObject "class");
      ("task", VObject "function"); ("between", VObject "function");
      ("events", VObject "module"); ("LoadTestShape", VObject "class");
      ("np", VObject "module"); ("Image", VObject "module");
      ("Path", VObject "class"); ("random", VObject "module");
      ("time", VObject "module");
      ("content_type", VStr "application/octet-stream");
      ("SageMakerClient", VObject "class"); ("SageMakerUser", VObject "class");
      ("SimpleSendRequest", VObject "class"); ("StagesShape", VObject "class") ].

(** [globals()[key]]. *)
Definition globals_getitem (globals : gmap string PyVal) (key : string) : Result PyVal :=
  match globals !! key with
  | Some v => Ok v
  | None => Raise (mkExc KeyError key)
  end.

(** Reading a global by name. *)
Definition global_name (globals : gmap string PyVal) (name : string) : Result PyVal :=
  match globals !! name with
  | Some v => Ok v
  | None => Raise (mkExc NameError ("name '" +:+ name +:+ "' is not defined"))
  end.

(** [SageMakerClient.__init__]; [boto3_Session] is the outcome of
    [boto3.session.Session()]. *)
Definition SageMakerClient_init (boto3_Session : Result Session)
    (globals : gmap string PyVal) : Result SageMakerClient :=
  the_session ← boto3_Session;
  the_payload ← globals_getitem globals "payload";
  the_client ← session_client the_session "sagemaker-runtime";
  the_content_type ← global_name globals "content_type";
  Ok (mkSageMakerClient the_session the_payload the_client the_content_type).

(** [SageMakerUser.__init__]: [User_init] is the outcome of the locust
    base constructor, [read_payload] that of
    [Path(parsed_options.payload).open("r").read()].  The result is the
    client stored in [self.client], together with the module globals
    the constructor leaves behind. *)
Definition SageMakerUser_init (User_init : Result unit) (read_payload : Result string)
    (boto3_Session : Result Session) (globals : gmap string PyVal)
    : Result SageMakerClient * gmap string PyVal :=
  match User_init with
  | Raise e => (Raise e, globals)
  | Ok _ =>
      match read_payload with
      | Raise e => (Raise e, globals)
      | Ok text =>
          let globals' := <["payload" := VStr text]> globals in
          (SageMakerClient_init boto3_Session globals', globals')
      end
  end.

(** The text of the [ValueError] of [random.randint(a, b)], which is
    [randrange(a, b + 1)], in the wording of CPython 3.11:
    ["empty range for randrange() (%d, %d, %d)" % (start, stop, width)].
    Other releases word it differently; every release names the
    bounds. *)
Definition empty_range_message (a b : Z) : string :=
  "empty range for randrange() (" +:+ pretty a +:+ ", " +:+ pretty (b + 1)%Z
    +:+ ", " +:+ pretty (b + 1 - a)%Z +:+ ")".

(** [random.randint(a, b)]: an empty range raises [ValueError]. *)
Definition randint (draw a b : Z) : Result Z :=
  if (b <? a)%Z
  then Raise (mkExc ValueError (empty_range_message a b))
  else Ok (a + draw mod (b - a + 1))%Z.

(** *** Doubles *)

(** The result of a float operation on finite operands: a finite
    double, as the rational it denotes, or an infinity.  The sign of a
    zero is not tracked. *)
Inductive Double : Type :=
  | Finite (q : Q)
  | Infinity (negative : bool).

(** The nearest integer, the even one on a tie. *)
Definition round_half_even (x : Q) : Z :=
  let f := Qfloor x in
  match Qcompare (x - inject_Z f) (1 # 2) with
  | Lt => f
  | Gt => (f + 1)%Z
  | Eq => if Z.even f then f else (f + 1)%Z
  end.

(** [floor (log2 x)] for a positive [x]. *)
Definition Qlog2 (x : Q) : Z :=
  let e := (Z.log2 (Qnum x) - Z.log2 (Zpos (Qden x)))%Z in
  if Qle_bool (2 ^ e) x then e else (e - 1)%Z.

(** A positive real rounded to binary64: 53 significant bits, the
    exponent of the last bit no lower than -1074 (subnormals), and
    overflow from [2 ^ 1024] on. *)
Definition round_magnitude (x : Q) : option Q :=
  let e := Z.max (Qlog2 x - 52) (-1074) in
  let y := inject_Z (round_half_even (x / 2 ^ e)) * 2 ^ e in
  if Qle_bool (2 ^ 1024) y then None else Some (Qred y).

(** A real rounded to the nearest double, ties to even. *)
Definition round_double (x : Q) : Double :=
  match Qnum x with
  | Z0 => Finite 0
  | Zpos _ =>
      match round_magnitude x with
      | Some y => Finite y
      | None => Infinity false
      end
  | Zneg _ =>
      match round_magnitude (- x) with
      | Some y => Finite (- y)
      | None => Infinity true
      end
  end.

(** [a - b] on two floats. *)
Definition float_sub (a b : Q) : Double := round_double (a - b).

(** [x * 1000] on a float. *)
Definition float_mul_1000 (x : Double) : Double :=
  match x with
  | Finite q => round_double (q * 1000)
  | Infinity negative => Infinity negative
  end.

Definition float_val (x : Double) : PyVal :=
  match x with
  | Finite q => VFloat q
  | Infinity negative => VInf negative
  end.

(** A float value that is zero, positive or plus infinity. *)
Definition float_nonneg (v : PyVal) : Prop :=
  match v with
  | VFloat q => 0 <= q
  | VInf negative => negative = false
  | _ => False
  end.

(** ["{0}-v{1}.tar.gz".format(model_name, k)]. *)
Definition target_model (model_name : string) (k : Z) : string :=
  model_name +:+ "-v" +:+ pretty k +:+ ".tar.gz".

(** The dict literal that opens [send]. *)
Definition request_meta_init (model_name : string) (model_count : Z)
    (start_time : Q) : gmap string PyVal :=
  <["request_type" := VStr "InvokeEndpoint"]>
  (<["name" := VStr model_name]>
  (<["start_time" := VFloat start_time]>
  (<["num_models" := VInt model_count]>
  (<["response_length" := VInt 0]>
  (<["response" := VNone]>
  (<["context" := VEmptyDict]>
  (<["exception" := VNone]> ∅))))))).

(** One call of [invoke_endpoint], by its keyword arguments. *)
Record Call : Type := mkCall {
  call_EndpointName : string;
  call_Body : PyVal;
  call_ContentType : PyVal;
  call_TargetModel : string
}.

(** The answer of a client to a call. *)
Definition answer (c : BotoClient) (call : Call) : Result PyVal :=
  invoke_endpoint c (call_EndpointName call) (call_Body call)
    (call_ContentType call) (call_TargetModel call).

(** The body of the [try] statement of [send]: the arguments are
    evaluated, then the endpoint is invoked.  The result is the outcome
    of the body together with the calls it made on the endpoint, in
    order. *)
Definition invoke_traced (self : SageMakerClient) (rt : Runtime)
    (endpoint_name model_name : string) (model_count : Z)
    : Result PyVal * list Call :=
  match randint (random_draw rt) 0 (model_count - 1) with
  | Raise e => (Raise e, [])
  | Ok k =>
      let call :=
        mkCall endpoint_name (payload self) (content_type self)
          (target_model model_name k) in
      (answer (client self) call, [call])
  end.

(** The outcome of the [try] body. *)
Definition invoke (self : SageMakerClient) (rt : Runtime)
    (endpoint_name model_name : string) (model_count : Z) : Result PyVal :=
  (invoke_traced self rt endpoint_name model_name model_count).1.

(** [(time.perf_counter() - start_perf_counter) * 1000]. *)
Definition elapsed_ms (start_perf_counter now : Q) : PyVal :=
  float_val (float_mul_1000 (float_sub now start_perf_counter)).

(** [SageMakerClient.send].  The state is the list of request events
    fired so far, oldest first; the result is [Ok tt] when the method
    returns and [Raise e] when [e] leaves it. *)
Definition send (self : SageMakerClient) (rt : Runtime)
    (endpoint_name use_case model_name : string) (model_count : Z)
    (fired : list (gmap string PyVal))
    : Result unit * list (gmap string PyVal) :=
  let request_meta := request_meta_init model_name model_count (time_time rt) in
  let start_perf_counter := perf_counter rt 0 in
  let fire meta :=
    let meta' :=
      <["response_time" := elapsed_ms start_perf_counter (perf_counter rt 1)]> meta in
    (Ok tt, fired ++ [meta']) in
  match invoke self rt endpoint_name model_name model_count with
  | Ok response => fire request_meta
  | Raise e =>
      if is_Exception e
      then fire (<["exception" := VExc e]> request_meta)
      else (Raise e, fired)
  end.

(** A client whose endpoint answers every call with the outcome [r]. *)
Definition stub_client (r : Result PyVal) : SageMakerClient :=
  let c := mkBotoClient (fun _ _ _ _ => r) in
  mkSageMakerClient (mkSession (fun _ => Ok c)) (VStr "{}") c
    (VStr "application/octet-stream").

Definition stub_runtime : Runtime := mkRuntime 1700000000 (fun i => inject_Z (Z.of_nat i)) 7.

End Client.

Import Client.

(** ** The concurrency controller *)

Module Controller.

(** Modelled from the spec: the tick result of the stage scheduler.
    The repository has no scheduler type of its own; [tick] returns a
    pair or [None]. *)
Inductive TickResult : Type :=
  | Continue (target_concurrency : nat) (spawn_rate : Q)
  | Finished.

(** Modelled from the spec: what one reconcile step asks of the worker
    pool. *)
Inductive Action : Type :=
  | StartWorkers (n : nat)
  | StopWorkers (n : nat)
  | NoAction
  | StopAll.

(** Modelled from the spec: [ceil(spawn_rate * dt)] as a worker count
    (spec section 4.3). *)
Definition spawn_quota (spawn_rate dt : Q) : nat := Z.to_nat (Qceiling (spawn_rate * dt)).

(** Modelled from the spec: the ConcurrencyController's [reconcile]
    (spec section 4.3).  The repository leaves worker reconciliation to
    the locust runner, so no source function is embedded here: below
    the target it starts [ceil(spawn_rate * dt)] workers, capped at the
    distance to the target; above the target it stops the surplus at
    once; on [Finished] it stops everything. *)
Definition reconcile (current_active : nat) (target : TickResult) (dt : Q) : Action :=
  match target with
  | Finished => StopAll
  | Continue target_concurrency spawn_rate =>
      if (current_active <? target_concurrency)%nat
      then StartWorkers (Nat.min (spawn_quota spawn_rate dt)
                                 (target_concurrency - current_active))
      else if (target_concurrency <? current_active)%nat
      then StopWorkers (current_active - target_concurrency)
      else NoAction
  end.

(** Modelled from the spec: the active count after the worker pool has
    carried out an action of which [failed] operations failed (spec
    section 7: a failed start does not increment the count, a failed
    stop does not decrement it). *)
Definition apply_action (current_active : nat) (a : Action) (failed : nat) : nat :=
  match a with
  | StartWorkers n => current_active + (n - failed)
  | StopWorkers n => current_active - (n - failed)
  | NoAction => current_active
  | StopAll => Nat.min current_active failed
  end.

(** Modelled from the spec: the control loop run for one tick per entry
    of [failures], the entry being the number of failed worker
    operations of that tick. *)
Fixpoint run_ticks (target : TickResult) (dt : Q) (failures : list nat)
    (current_active : nat) : nat :=
  match failures with
  | [] => current_active
  | failed :: later =>
      run_ticks target dt later
        (apply_action current_active (reconcile current_active target dt) failed)
  end.

End Controller.

Import Controller.

(** ** The locust user *)

Module User.

(** [environment.parsed_options], as far as the module reads it: the
    five options that the command-line listener adds to the parser. *)
Record ParsedOptions : Type := mkOptions {
  opt_endpoint_name : string;
  opt_model_name : string;
  opt_use_case : string;
  opt_payload : string;
  opt_model_count : Z
}.

(** A [SimpleSendRequest] user: the options of its environment and the
    client that [SageMakerUser.__init__] stores in [self.client]. *)
Record SimpleSendRequest : Type := mkUser {
  parsed_options : ParsedOptions;
  user_client : SageMakerClient
}.

(** [SimpleSendRequest(...)]: the class inherits [SageMakerUser.__init__],
    which reads the file named by the [payload] option; [read_text] is
    the file system, from a path to the outcome of [open("r").read()]. *)
Definition SimpleSendRequest_init (options : ParsedOptions) (User_init : Result unit)
    (read_text : string -> Result string) (boto3_Session : Result Session)
    (globals : gmap string PyVal)
    : Result SimpleSendRequest * gmap string PyVal :=
  let out :=
    SageMakerUser_init User_init (read_text (opt_payload options)) boto3_Session globals in
  (c ← out.1; Ok (mkUser options c), out.2).

(** The task [SimpleSendRequest.send_request]. *)
Definition send_request (self : SimpleSendRequest) (rt : Runtime)
    (fired : list (gmap string PyVal))
    : Result unit * list (gmap string PyVal) :=
  let endpoint_name := opt_endpoint_name (parsed_options self) in
  let use_case := opt_use_case (parsed_options self) in
  let model_name := opt_model_name (parsed_options self) in
  let model_count := opt_model_count (parsed_options self) in
  send (user_client self) rt endpoint_name use_case model_name model_count fired.

(** The task called once per entry of [rts], one call after the other;
    an exception that leaves a call ends the sequence. *)
Fixpoint send_requests (self : SimpleSendRequest) (rts : list Runtime)
    (fired : list (gmap string PyVal))
    : Result unit * list (gmap string PyVal) :=
  match rts with
  | [] => (Ok tt, fired)
  | rt :: later =>
      match send_request self rt fired with
      | (Ok _, fired') => send_requests self later fired'
      | (Raise e, fired') => (Raise e, fired')
      end
  end.

(** The options of a run that gives only the two required flags: the
    other three take the defaults declared by the listener. *)
Definition default_options (use_case payload_path : string) : ParsedOptions :=
  mkOptions "mme-cv-benchmark-pt" "vgg16" use_case payload_path 5.

(** A runtime whose performance counter reads the doubles nearest to
    0.1 and then 0.3. *)
Definition tenths_runtime : Runtime :=
  mkRuntime 1700000000
    (fun i => match i with
              | O => 3602879701896397 # 36028797018963968
              | _ => 5404319552844595 # 18014398509481984
              end)
    7.

(** A client that echoes the target model it was asked for. *)
Definition echo_client : BotoClient :=
  mkBotoClient (fun _ _ _ target => Ok (VStr target)).

(** A table written with per-stage lengths instead of cumulative
    boundaries. *)
Definition lengths_table : list Stage :=
  [ mkStage 120 2 2; mkStage 120 4 2; mkStage 60 6 2 ].

End User.

Import User.

(** * Properties of the stage scan *)

Section StageScan.

Lemma Qltb_lt (x y : Q) : Qltb x y = true <-> x < y.
Proof.
  unfold Qltb. rewrite negb_true_iff.
  split; intros H.
  - apply Qnot_le_lt. intros Hle. apply Qle_bool_iff in Hle. congruence.
  - destruct (Qle_bool y x) eqn:E; [|reflexivity].
    apply Qle_bool_iff in E. exfalso. exact (Qlt_not_le _ _ H E).
Qed.

Lemma Qltb_ge (x y : Q) : Qltb x y = false <-> y <= x.
Proof.
  unfold Qltb. rewrite negb_false_iff. apply Qle_bool_iff.
Qed.

(** [tick] returns the data of the stage found by the instrumented loop. *)
Lemma tick_loop_resolve (table : list Stage) (t : Q) :
  tick_loop table t = option_map tick_data (resolve table t).
Proof.
  unfold resolve. induction table as [|stage rest IH]; simpl; [reflexivity|].
  destruct (Qltb t (duration stage)); [reflexivity|].
  rewrite IH. destruct (resolve_index rest t); reflexivity.
Qed.

(** The loop returns at position [i] exactly when stage [i] is the
    first whose boundary exceeds the run time. *)
Lemma resolve_index_Some (table : list Stage) (t : Q) (i : nat) :
  resolve_index table t = Some i <->
  exists stage, table !! i = Some stage /\ t < duration stage /\
    forall j earlier, (j < i)%nat -> table !! j = Some earlier -> duration earlier <= t.
Proof.
  revert i. induction table as [|head rest IH]; intros i; simpl.
  - split; [discriminate|]. intros (stage & H & _). discriminate.
  - destruct (Qltb t (duration head)) eqn:E.
    + apply Qltb_lt in E. split.
      * intros [= <-]. exists head. repeat split; [exact E|]. intros j earlier Hj. lia.
      * intros (stage & Hi & Hlt & Hbefore). destruct i as [|i]; [reflexivity|].
        exfalso. apply (Qlt_not_le _ _ E). apply (Hbefore 0%nat head); [lia|reflexivity].
    + apply Qltb_ge in E. split.
      * destruct (resolve_index rest t) as [k|] eqn:Ek; simpl; [|discriminate].
        intros [= <-]. destruct (proj1 (IH k) eq_refl) as (stage & Hk & Hlt & Hbefore).
        exists stage. repeat split; [exact Hk|exact Hlt|].
        intros [|j] earlier Hj Hlook; simpl in Hlook.
        -- injection Hlook as <-. exact E.
        -- apply (Hbefore j); [lia|exact Hlook].
      * intros (stage & Hi & Hlt & Hbefore). destruct i as [|i]; simpl in Hi.
        -- injection Hi as <-. exfalso. exact (Qlt_not_le _ _ Hlt E).
        -- assert (Hrest : resolve_index rest t = Some i).
           { apply IH. exists stage. repeat split; [exact Hi|exact Hlt|].
             intros j earlier Hj Hlook. apply (Hbefore (S j)); [lia|exact Hlook]. }
           rewrite Hrest. reflexivity.
Qed.

(** The loop falls off the end exactly when no boundary exceeds the run
    time. *)
Lemma resolve_index_None (table : list Stage) (t : Q) :
  resolve_index table t = None <-> forall stage, stage ∈ table -> duration stage <= t.
Proof.
  induction table as [|head rest IH]; simpl.
  - split; [|reflexivity]. intros _ stage H. inversion H.
  - destruct (Qltb t (duration head)) eqn:E.
    + apply Qltb_lt in E. split; [discriminate|]. intros H. exfalso.
      apply (Qlt_not_le _ _ E). apply H. left.
    + apply Qltb_ge in E. destruct (resolve_index rest t) as [k|] eqn:Ek; simpl.
      * split; [discriminate|]. intros H. exfalso.
        assert (Hnone : Some k = @None nat); [|discriminate].
        apply IH. intros stage Hin. apply H. right. exact Hin.
      * split; [|reflexivity]. intros _ stage Hin.
        apply elem_of_cons in Hin. destruct Hin as [->|Hin]; [exact E|].
        destruct IH as [IH _]. apply IH; [reflexivity|exact Hin].
Qed.

Lemma tick_None (self : StagesShape) (t : Q) :
  tick self t = None <-> resolve_index (shape_stages self) t = None.
Proof.
  unfold tick. rewrite tick_loop_resolve. unfold resolve.
  destruct (resolve_index (shape_stages self) t) as [i|] eqn:E; simpl.
  - apply resolve_index_Some in E. destruct E as (stage & -> & _). simpl.
    split; discriminate.
  - split; reflexivity.
Qed.

Lemma tick_at_index (self : StagesShape) (t : Q) (i : nat) (stage : Stage) :
  resolve_index (shape_stages self) t = Some i ->
  shape_stages self !! i = Some stage ->
  tick self t = Some (users stage, spawn_rate stage).
Proof.
  intros Hi Hs. unfold tick. rewrite tick_loop_resolve. unfold resolve.
  rewrite Hi, Hs. reflexivity.
Qed.

End StageScan.

(** ** The stage windows *)

Section StageWindows.

Lemma increasing_lookup (table : list Stage) (i j : nat) (a b : Stage) :
  increasing table -> (i < j)%nat ->
  table !! i = Some a -> table !! j = Some b -> duration a < duration b.
Proof.
  unfold increasing. intros Hinc. revert i j.
  induction Hinc as [|head rest Hrest IH Hall]; intros i j Hij Ha Hb.
  - discriminate.
  - destruct j as [|j]; [lia|]. simpl in Hb. destruct i as [|i]; simpl in Ha.
    + injection Ha as <-.
      rewrite List.Forall_forall in Hall. apply Hall.
      apply list_elem_of_In. eapply list_elem_of_lookup_2. exact Hb.
    + apply (IH i j); [lia|exact Ha|exact Hb].
Qed.

(** With increasing boundaries, a run time at or after the previous
    boundary is at or after every earlier boundary. *)
Lemma after_previous_all (table : list Stage) (i : nat) (stage : Stage) (t : Q) :
  increasing table -> table !! i = Some stage -> after_previous false table i t ->
  forall j earlier, (j < i)%nat -> table !! j = Some earlier -> duration earlier <= t.
Proof.
  intros Hinc Hstage Hprev j earlier Hj Hlook.
  destruct i as [|i]; [lia|]. simpl in Hprev.
  destruct (table !! i) as [prev|] eqn:Hi.
  - destruct (Nat.eq_dec j i) as [->|Hne].
    + rewrite Hi in Hlook. injection Hlook as <-. exact Hprev.
    + apply Qle_trans with (duration prev); [|exact Hprev].
      apply Qlt_le_weak. apply (increasing_lookup table j i); [exact Hinc|lia|exact Hlook|exact Hi].
  - exfalso. apply lookup_ge_None in Hi. apply lookup_lt_Some in Hstage. lia.
Qed.

End StageWindows.

(** * The claims about [StagesShape.tick] *)

(** C1, as the code has it.  On the table with boundaries 120, 240, 360
    and targets 2, 4, 6: run times 0 and 119 resolve to stage 0
    (target 2), run time 120 to stage 1 (target 4), run time 359 to
    stage 2 (target 6), and run times 360 and 361 to [None]. *)
Theorem tick_table3 (r0 r1 r2 : Q) :
  let self := mkShape (table3 r0 r1 r2) in
  (resolve_index (table3 r0 r1 r2) 0 = Some 0%nat /\ tick self 0 = Some (2%Z, r0)) /\
  (resolve_index (table3 r0 r1 r2) 119 = Some 0%nat /\ tick self 119 = Some (2%Z, r0)) /\
  (resolve_index (table3 r0 r1 r2) 120 = Some 1%nat /\ tick self 120 = Some (4%Z, r1)) /\
  (resolve_index (table3 r0 r1 r2) 359 = Some 2%nat /\ tick self 359 = Some (6%Z, r2)) /\
  (resolve_index (table3 r0 r1 r2) 360 = None /\ tick self 360 = None) /\
  (resolve_index (table3 r0 r1 r2) 361 = None /\ tick self 361 = None).
Proof.
  simpl. repeat split; reflexivity.
Qed.

(** C1 as stated fails: at run time 359 the scan is already in stage 2,
    and at run time 360 it has left the table. *)
Lemma tick_table3_as_stated_fails :
  tick (mkShape (table3 2 2 2)) 359 = Some (6%Z, 2) /\
  tick (mkShape (table3 2 2 2)) 360 = None /\
  ~ (resolve (table3 2 2 2) 0 = Some (mkStage 120 2 2) /\
     resolve (table3 2 2 2) 119 = Some (mkStage 120 2 2) /\
     resolve (table3 2 2 2) 120 = Some (mkStage 240 4 2) /\
     resolve (table3 2 2 2) 359 = Some (mkStage 240 4 2) /\
     resolve (table3 2 2 2) 360 = Some (mkStage 360 6 2) /\
     resolve (table3 2 2 2) 361 = None).
Proof.
  split; [reflexivity|]. split; [reflexivity|].
  intros (_ & _ & _ & _ & H & _). vm_compute in H. discriminate H.
Qed.

(** C2, as the code has it.  On a table with increasing boundaries,
    stage [i] is returned for every run time in the window
    [previous boundary <= t < own boundary] (for the first stage, every
    [t] below its boundary); at a run time equal to the stage's own
    boundary the scan returns the next entry of the table, which is
    [None] after the last stage. *)
Theorem resolve_window (table : list Stage) (i : nat) (stage : Stage) (t : Q) :
  increasing table ->
  table !! i = Some stage ->
  (after_previous false table i t -> t < duration stage ->
     resolve_index table t = Some i /\
     resolve table t = Some stage /\
     tick (mkShape table) t = Some (users stage, spawn_rate stage)) /\
  resolve table (duration stage) = table !! S i.
Proof.
  intros Hinc Hi.
  assert (Hwin : forall k s u, table !! k = Some s -> after_previous false table k u ->
            u < duration s -> resolve_index table u = Some k).
  { intros k s u Hk Hprev Hlt. apply resolve_index_Some. exists s.
    repeat split; [exact Hk|exact Hlt|]. apply (after_previous_all table k s); assumption. }
  split.
  - intros Hprev Hlt. pose proof (Hwin i stage t Hi Hprev Hlt) as Hidx.
    repeat split; [exact Hidx| |].
    + unfold resolve. rewrite Hidx. exact Hi.
    + apply (tick_at_index (mkShape table) t i stage); [exact Hidx|exact Hi].
  - destruct (table !! S i) as [next|] eqn:Hnext.
    + unfold resolve. rewrite (Hwin (S i) next (duration stage) Hnext).
      * exact Hnext.
      * simpl. rewrite Hi. apply Qle_refl.
      * apply (increasing_lookup table i (S i)); [exact Hinc|lia|exact Hi|exact Hnext].
    + unfold resolve.
      assert (Hnone : resolve_index table (duration stage) = None); [|rewrite Hnone; reflexivity].
      apply resolve_index_None. intros s Hin.
      apply list_elem_of_lookup in Hin. destruct Hin as [k Hk].
      apply lookup_ge_None in Hnext. pose proof (lookup_lt_Some _ _ _ Hk) as Hlen.
      destruct (Nat.eq_dec k i) as [->|Hne].
      * rewrite Hi in Hk. injection Hk as <-. apply Qle_refl.
      * apply Qlt_le_weak.
        apply (increasing_lookup table k i); [exact Hinc|lia|exact Hk|exact Hi].
Qed.

Lemma resolve_window_witness :
  (resolve_index (table3 2 2 2) 120 = Some 1%nat /\
   resolve (table3 2 2 2) 120 = Some (mkStage 240 4 2) /\
   tick (mkShape (table3 2 2 2)) 120 = Some (4%Z, 2)) /\
  resolve (table3 2 2 2) 240 = Some (mkStage 360 6 2).
Proof.
  assert (Hinc : increasing (table3 2 2 2)).
  { unfold increasing, table3. repeat constructor. }
  destruct (resolve_window (table3 2 2 2) 1 (mkStage 240 4 2) 120 Hinc eq_refl)
    as [Hwin Hnext].
  split; [|exact Hnext].
  apply Hwin; simpl; [discriminate|reflexivity].
Defined.

(** C2 as stated fails: 120 lies in the window (-, 120] that the claim
    gives stage 0, and the scan returns stage 1 there. *)
Lemma resolve_window_closed_above_fails :
  increasing (table3 2 2 2) /\
  table3 2 2 2 !! 0%nat = Some (mkStage 120 2 2) /\
  after_previous true (table3 2 2 2) 0 120 /\
  120 <= duration (mkStage 120 2 2) /\
  resolve (table3 2 2 2) 120 = Some (mkStage 240 4 2) /\
  resolve (table3 2 2 2) 120 <> Some (mkStage 120 2 2).
Proof.
  repeat split.
  - unfold increasing, table3. repeat constructor.
  - simpl. discriminate.
  - vm_compute. discriminate.
Qed.

(** C3.  Whenever some stage's boundary is strictly greater than the
    run time, [tick] returns the data of the first stage, in table
    order, whose boundary is strictly greater than the run time. *)
Theorem tick_first_greater (self : StagesShape) (t : Q) :
  (exists later, later ∈ shape_stages self /\ t < duration later) ->
  exists i stage,
    shape_stages self !! i = Some stage /\
    t < duration stage /\
    (forall j earlier, (j < i)%nat -> shape_stages self !! j = Some earlier ->
       ~ t < duration earlier) /\
    resolve_index (shape_stages self) t = Some i /\
    resolve (shape_stages self) t = Some stage /\
    tick self t = Some (users stage, spawn_rate stage).
Proof.
  intros (later & Hin & Hlt).
  destruct (resolve_index (shape_stages self) t) as [i|] eqn:Hidx.
  - destruct (proj1 (resolve_index_Some _ _ _) Hidx) as (stage & Hi & Hs & Hbefore).
    exists i, stage. repeat split; try assumption.
    + intros j earlier Hj Hlook Hcontra.
      exact (Qlt_not_le _ _ Hcontra (Hbefore j earlier Hj Hlook)).
    + unfold resolve. rewrite Hidx. exact Hi.
    + apply (tick_at_index self t i stage); assumption.
  - exfalso. apply (Qlt_not_le _ _ Hlt).
    apply (proj1 (resolve_index_None _ _) Hidx). exact Hin.
Qed.

Lemma tick_first_greater_witness :
  exists i stage,
    shape_stages (mkShape stages) !! i = Some stage /\
    500 < duration stage /\
    (forall j earlier, (j < i)%nat -> shape_stages (mkShape stages) !! j = Some earlier ->
       ~ 500 < duration earlier) /\
    resolve_index (shape_stages (mkShape stages)) 500 = Some i /\
    resolve (shape_stages (mkShape stages)) 500 = Some stage /\
    tick (mkShape stages) 500 = Some (users stage, spawn_rate stage).
Proof.
  apply (tick_first_greater (mkShape stages) 500).
  exists (mkStage 720 12 2). split; [|reflexivity].
  simpl. unfold stages. do 5 apply list_elem_of_further. apply list_elem_of_here.
Defined.

(** C4.  Once [tick] has returned [None] at some run time, it returns
    [None] at every later run time. *)
Theorem tick_None_sticky (self : StagesShape) (t t' : Q) :
  t <= t' -> tick self t = None -> tick self t' = None.
Proof.
  intros Hle Hnone. apply tick_None. apply tick_None in Hnone.
  apply resolve_index_None. intros stage Hin.
  apply Qle_trans with t; [|exact Hle].
  apply (proj1 (resolve_index_None _ _) Hnone). exact Hin.
Qed.

Lemma tick_None_sticky_witness :
  1200 <= 5000 /\ tick (mkShape stages) 1200 = None /\ tick (mkShape stages) 5000 = None.
Proof.
  assert (Hle : 1200 <= 5000) by discriminate.
  assert (Hnone : tick (mkShape stages) 1200 = None) by reflexivity.
  split; [exact Hle|]. split; [exact Hnone|].
  exact (tick_None_sticky (mkShape stages) 1200 5000 Hle Hnone).
Defined.

(** C5.  For run times [t1 < t2] that both resolve to a stage, the
    position of the stage returned for [t2] is not before the position
    of the stage returned for [t1]. *)
Theorem resolve_index_monotone (self : StagesShape) (t1 t2 : Q) (i1 i2 : nat) :
  t1 < t2 ->
  resolve_index (shape_stages self) t1 = Some i1 ->
  resolve_index (shape_stages self) t2 = Some i2 ->
  (i1 <= i2)%nat.
Proof.
  intros Hlt H1 H2.
  apply resolve_index_Some in H1. destruct H1 as (s1 & Hs1 & Hlt1 & Hbefore1).
  apply resolve_index_Some in H2. destruct H2 as (s2 & Hs2 & Hlt2 & Hbefore2).
  destruct (Nat.le_gt_cases i1 i2) as [Hle|Hgt]; [exact Hle|].
  exfalso. apply (Qlt_not_le t1 (duration s2)).
  - apply Qlt_trans with t2; assumption.
  - apply (Hbefore1 i2 s2); [exact Hgt|exact Hs2].
Qed.

Lemma resolve_index_monotone_witness :
  130 < 1001 # 2 /\
  resolve_index stages 130 = Some 1%nat /\
  resolve_index stages (1001 # 2) = Some 4%nat /\
  (1 <= 4)%nat.
Proof.
  assert (Hlt : 130 < 1001 # 2) by reflexivity.
  assert (H1 : resolve_index stages 130 = Some 1%nat) by reflexivity.
  assert (H2 : resolve_index stages (1001 # 2) = Some 4%nat) by reflexivity.
  split; [exact Hlt|]. split; [exact H1|]. split; [exact H2|].
  exact (resolve_index_monotone (mkShape stages) 130 (1001 # 2) 1 4 Hlt H1 H2).
Defined.

(** C6.  At a run time greater than or equal to every boundary of the
    table, [tick] returns [None]. *)
Theorem tick_past_every_boundary (self : StagesShape) (t : Q) :
  (forall stage, stage ∈ shape_stages self -> duration stage <= t) ->
  tick self t = None.
Proof.
  intros Hall. apply tick_None. apply resolve_index_None. exact Hall.
Qed.

Lemma tick_past_every_boundary_witness : tick (mkShape (table3 2 2 2)) 360 = None.
Proof.
  apply (tick_past_every_boundary (mkShape (table3 2 2 2)) 360).
  intros stage Hin. simpl in Hin. unfold table3 in Hin.
  repeat (apply elem_of_cons in Hin; destruct Hin as [->|Hin]; [simpl; discriminate|]).
  inversion Hin.
Defined.

(** C7, as the code has it.  A shape is built from any stage list,
    the empty one included, without error; the shape built from the
    empty list returns [None] from [tick] at every run time. *)
Theorem empty_table_accepted (t : Q) :
  StagesShape_init [] = Ok (mkShape []) /\ tick (mkShape []) t = None.
Proof.
  split; reflexivity.
Qed.

(** C7 as stated fails: building a shape from the empty list raises
    nothing. *)
Lemma empty_table_not_rejected :
  (forall e, StagesShape_init [] <> Raise e) /\
  exists self, StagesShape_init [] = Ok self /\ forall t, tick self t = None.
Proof.
  split; [intros e; discriminate|].
  exists (mkShape []). split; [reflexivity|]. intros t. reflexivity.
Qed.

(** * The claims about [SageMakerClient] *)

Section Send.

Variables (self : SageMakerClient) (rt : Runtime).
Variables (endpoint_name use_case model_name : string) (model_count : Z).

(** A model count below one makes [random.randint] raise inside the
    [try] body, before the endpoint is reached. *)
Lemma invoke_traced_invalid_model_count :
  (model_count <= 0)%Z ->
  invoke_traced self rt endpoint_name model_name model_count
  = (Raise (mkExc ValueError (empty_range_message 0 (model_count - 1))), []).
Proof.
  intros Hle. unfold invoke_traced, randint.
  destruct (model_count - 1 <? 0)%Z eqn:E; [reflexivity|].
  apply Z.ltb_ge in E. lia.
Qed.

Lemma invoke_invalid_model_count :
  (model_count <= 0)%Z ->
  invoke self rt endpoint_name model_name model_count
  = Raise (mkExc ValueError (empty_range_message 0 (model_count - 1))).
Proof.
  intros Hle. unfold invoke. rewrite (invoke_traced_invalid_model_count Hle).
  reflexivity.
Qed.

(** What leaves the [try] body is raised either by [random.randint] or
    by the endpoint invocation. *)
Lemma invoke_Raise (e : PyExc) :
  invoke self rt endpoint_name model_name model_count = Raise e ->
  e = mkExc ValueError (empty_range_message 0 (model_count - 1)) \/
  exists body ctype target,
    invoke_endpoint (client self) endpoint_name body ctype target = Raise e.
Proof.
  unfold invoke, invoke_traced, randint.
  destruct (model_count - 1 <? 0)%Z; simpl.
  - intros [= <-]. left. reflexivity.
  - intros H. right. eauto.
Qed.

Lemma request_meta_init_exception (start_time : Q) :
  request_meta_init model_name model_count start_time !! "exception" = Some VNone.
Proof.
  unfold request_meta_init. by simplify_map_eq.
Qed.

End Send.

(** C9, as the code has it.  Whatever the arguments: when the endpoint
    invocation returns, or raises an instance of [Exception] (an
    invalid model count raises [ValueError] inside the same [try]),
    [send] returns normally and fires exactly one request event, whose
    [exception] entry is the caught exception on failure and [None] on
    success and whose [response_time] entry is set to the elapsed
    milliseconds; when the invocation raises an exception that is not
    an instance of [Exception], that exception leaves [send] and no
    event is fired. *)
Theorem send_fires_one_event (self : SageMakerClient) (rt : Runtime)
    (endpoint_name use_case model_name : string) (model_count : Z)
    (fired : list (gmap string PyVal)) :
  (forall response,
     invoke self rt endpoint_name model_name model_count = Ok response ->
     exists meta : gmap string PyVal,
       send self rt endpoint_name use_case model_name model_count fired
         = (Ok tt, fired ++ [meta]) /\
       meta !! "exception" = Some VNone /\
       meta !! "response_time"
         = Some (elapsed_ms (perf_counter rt 0) (perf_counter rt 1))) /\
  (forall e,
     invoke self rt endpoint_name model_name model_count = Raise e ->
     is_Exception e = true ->
     exists meta : gmap string PyVal,
       send self rt endpoint_name use_case model_name model_count fired
         = (Ok tt, fired ++ [meta]) /\
       meta !! "exception" = Some (VExc e) /\
       meta !! "response_time"
         = Some (elapsed_ms (perf_counter rt 0) (perf_counter rt 1))) /\
  (forall e,
     invoke self rt endpoint_name model_name model_count = Raise e ->
     is_Exception e = false ->
     send self rt endpoint_name use_case model_name model_count fired
       = (Raise e, fired)) /\
  ((model_count <= 0)%Z ->
     exists e, exc_class e = ValueError /\ is_Exception e = true /\
       invoke self rt endpoint_name model_name model_count = Raise e).
Proof.
  unfold send. split; [|split; [|split]].
  - intros response ->. eexists. split; [reflexivity|]. split.
    + rewrite lookup_insert_ne by done. apply request_meta_init_exception.
    + apply lookup_insert_eq.
  - intros e -> ->. eexists. split; [reflexivity|]. split.
    + rewrite lookup_insert_ne by done. apply lookup_insert_eq.
    + apply lookup_insert_eq.
  - intros e -> ->. reflexivity.
  - intros Hle. eexists. split; [|split]; [| |apply invoke_invalid_model_count; exact Hle];
      reflexivity.
Qed.

Lemma send_fires_one_event_witness :
  exists meta : gmap string PyVal,
    send (stub_client (Raise (mkExc ClientError "ModelError"))) stub_runtime
      "mme-cv-benchmark-pt" "cv" "vgg16" 5 []
      = (Ok tt, [] ++ [meta]) /\
    meta !! "exception" = Some (VExc (mkExc ClientError "ModelError")) /\
    meta !! "response_time" = Some (VFloat 1000).
Proof.
  exact (proj1 (proj2 (send_fires_one_event
                         (stub_client (Raise (mkExc ClientError "ModelError")))
                         stub_runtime "mme-cv-benchmark-pt" "cv" "vgg16" 5 []))
           (mkExc ClientError "ModelError") eq_refl eq_refl).
Defined.

(** C9 as stated fails: an exception outside the [Exception]
    hierarchy that arrives during the endpoint invocation is not caught;
    it leaves [send] and no event is fired. *)
Lemma send_propagates_KeyboardInterrupt :
  send (stub_client (Raise (mkExc KeyboardInterrupt ""))) stub_runtime
    "mme-cv-benchmark-pt" "cv" "vgg16" 5 []
  = (Raise (mkExc KeyboardInterrupt ""), []).
Proof.
  reflexivity.
Qed.

(** C10.  The module body binds no global named [payload]; while that
    key is absent, building a [SageMakerClient] never yields a client,
    and once [boto3.session.Session()] has returned the constructor
    raises [KeyError] on the key; [SageMakerUser.__init__] binds the key
    to the text of the payload file before it builds its client, whose
    lookup of the key then succeeds. *)
Theorem SageMakerClient_init_needs_payload :
  module_globals !! "payload" = None /\
  (forall (boto3_Session : Result Session) (globals : gmap string PyVal),
     globals !! "payload" = None ->
     (forall c, SageMakerClient_init boto3_Session globals <> Ok c) /\
     (forall s, boto3_Session = Ok s ->
        SageMakerClient_init boto3_Session globals = Raise (mkExc KeyError "payload"))) /\
  (forall (u : unit) (text : string) (boto3_Session : Result Session)
          (globals : gmap string PyVal),
     let out := SageMakerUser_init (Ok u) (Ok text) boto3_Session globals in
     out.2 !! "payload" = Some (VStr text) /\
     out.1 = SageMakerClient_init boto3_Session out.2 /\
     globals_getitem out.2 "payload" = Ok (VStr text) /\
     forall c, out.1 = Ok c -> payload c = VStr text).
Proof.
  split; [vm_compute; reflexivity|]. split.
  - intros boto3_Session globals Habsent. unfold SageMakerClient_init, globals_getitem.
    rewrite Habsent. split.
    + intros c. destruct boto3_Session; simpl; discriminate.
    + intros s ->. reflexivity.
  - intros u text boto3_Session globals. simpl.
    split; [apply lookup_insert_eq|]. split; [reflexivity|].
    unfold SageMakerClient_init, globals_getitem, global_name.
    rewrite lookup_insert_eq. split; [reflexivity|].
    rewrite lookup_insert_ne by done.
    destruct boto3_Session as [s|e]; simpl; [|discriminate].
    destruct (session_client s "sagemaker-runtime") as [c|e]; simpl; [|discriminate].
    destruct (globals !! "content_type"); simpl; [|discriminate].
    intros c' [= <-]. reflexivity.
Qed.

Lemma SageMakerClient_init_needs_payload_witness :
  (forall c, SageMakerClient_init (Ok (session (stub_client (Ok VNone)))) module_globals <> Ok c) /\
  SageMakerClient_init (Ok (session (stub_client (Ok VNone)))) module_globals
  = Raise (mkExc KeyError "payload").
Proof.
  destruct SageMakerClient_init_needs_payload as (Habsent & Hinit & _).
  destruct (Hinit (Ok (session (stub_client (Ok VNone)))) module_globals Habsent)
    as [Hnever Hkey].
  split; [exact Hnever|]. apply (Hkey (session (stub_client (Ok VNone)))). reflexivity.
Defined.

(** * The claim about the concurrency controller *)

Section RampUp.

Lemma Qceiling_nonneg (x : Q) : 0 <= x -> (0 <= Qceiling x)%Z.
Proof.
  intros H. change 0%Z with (Qceiling 0). apply Qceiling_resp_le. exact H.
Qed.

Lemma spawn_quota_2_1 : spawn_quota 2 1 = 2%nat.
Proof. reflexivity. Qed.

(** One tick toward 10 workers at 2 workers per second and a 1 second
    period adds at most two workers and stays at or below 10. *)
Lemma ramp_step_le (current failed : nat) :
  (current <= 10)%nat ->
  (apply_action current (reconcile current (Continue 10 2) 1) failed
   <= Nat.min 10 (current + 2))%nat.
Proof.
  intros Hle. unfold reconcile. rewrite spawn_quota_2_1.
  destruct (current <? 10)%nat eqn:E.
  - apply Nat.ltb_lt in E. unfold apply_action. lia.
  - apply Nat.ltb_ge in E. assert (current = 10)%nat as -> by lia.
    simpl. lia.
Qed.

Lemma ramp_step_eq (current : nat) :
  (current <= 10)%nat ->
  apply_action current (reconcile current (Continue 10 2) 1) 0
  = Nat.min 10 (current + 2).
Proof.
  intros Hle. unfold reconcile. rewrite spawn_quota_2_1.
  destruct (current <? 10)%nat eqn:E.
  - apply Nat.ltb_lt in E. unfold apply_action. lia.
  - apply Nat.ltb_ge in E. assert (current = 10)%nat as -> by lia.
    reflexivity.
Qed.

Lemma run_ticks_le (failures : list nat) (current : nat) :
  (current <= 10)%nat ->
  (run_ticks (Continue 10 2) 1 failures current
   <= Nat.min 10 (current + 2 * length failures))%nat.
Proof.
  revert current. induction failures as [|failed later IH]; intros current Hle.
  - cbn [run_ticks length]. lia.
  - cbn [run_ticks length].
    pose proof (ramp_step_le current failed Hle) as Hstep.
    etransitivity; [apply IH; lia|]. lia.
Qed.

Lemma run_ticks_eq (n current : nat) :
  (current <= 10)%nat ->
  run_ticks (Continue 10 2) 1 (repeat 0%nat n) current = Nat.min 10 (current + 2 * n).
Proof.
  revert current. induction n as [|n IH]; intros current Hle.
  - cbn [repeat run_ticks]. lia.
  - cbn [repeat run_ticks]. rewrite (ramp_step_eq current Hle).
    rewrite IH by lia. lia.
Qed.

End RampUp.

(** C8.  Below the target, one reconcile step starts at most
    [ceil(spawn_rate * dt)] workers and leaves the active count at or
    below the target, whatever number of starts fail.  At 2 workers per
    second and a 1 second period, from 0 workers toward 10, the active
    count after [n] ticks is at most [min 10 (2 n)], and equals it when
    no start fails. *)
Theorem ramp_up_bound :
  (forall (current_active target_concurrency failed : nat) (spawn_rate dt : Q),
     (current_active < target_concurrency)%nat -> 0 < spawn_rate -> 0 <= dt ->
     exists started,
       reconcile current_active (Continue target_concurrency spawn_rate) dt
         = StartWorkers started /\
       (Z.of_nat started <= Qceiling (spawn_rate * dt))%Z /\
       (current_active + started <= target_concurrency)%nat /\
       (apply_action current_active (StartWorkers started) failed
        <= target_concurrency)%nat) /\
  (forall failures : list nat,
     (run_ticks (Continue 10 2) 1 failures 0
      <= Nat.min 10 (2 * length failures))%nat) /\
  (forall n : nat,
     run_ticks (Continue 10 2) 1 (repeat 0%nat n) 0 = Nat.min 10 (2 * n)).
Proof.
  split; [|split].
  - intros current target failed rate dt Hlt Hrate Hdt.
    exists (Nat.min (spawn_quota rate dt) (target - current)).
    unfold reconcile. apply Nat.ltb_lt in Hlt. rewrite Hlt. apply Nat.ltb_lt in Hlt.
    split; [reflexivity|].
    assert (Hceil : (0 <= Qceiling (rate * dt))%Z).
    { apply Qceiling_nonneg. apply Qmult_le_0_compat; [apply Qlt_le_weak; exact Hrate|exact Hdt]. }
    unfold spawn_quota, apply_action. repeat split; lia.
  - intros failures. apply (run_ticks_le failures 0). lia.
  - intros n. apply (run_ticks_eq n 0). lia.
Qed.

Lemma ramp_up_bound_witness :
  exists started,
    reconcile 9 (Continue 10 2) 1 = StartWorkers started /\
    (Z.of_nat started <= Qceiling (2 * 1))%Z /\
    (9 + started <= 10)%nat /\
    (apply_action 9 (StartWorkers started) 0 <= 10)%nat.
Proof.
  apply (proj1 ramp_up_bound 9%nat 10%nat 0%nat 2 1); [lia|reflexivity|discriminate].
Defined.

(** * Further properties of the stage scan *)

Section ScanFacts.

Lemma tick_loop_skip (stage : Stage) (rest : list Stage) (t : Q) :
  duration stage <= t -> tick_loop (stage :: rest) t = tick_loop rest t.
Proof.
  intros H. apply Qltb_ge in H. simpl. rewrite H. reflexivity.
Qed.

Lemma tick_loop_hit (stage : Stage) (rest : list Stage) (t : Q) :
  t < duration stage ->
  tick_loop (stage :: rest) t = Some (users stage, spawn_rate stage).
Proof.
  intros H. apply Qltb_lt in H. simpl. rewrite H. reflexivity.
Qed.

(** A returned pair is the data of the entry at the return position. *)
Lemma tick_Some_index (self : StagesShape) (t : Q) (u : Z) (r : Q) :
  tick self t = Some (u, r) ->
  exists i stage,
    resolve_index (shape_stages self) t = Some i /\
    shape_stages self !! i = Some stage /\
    u = users stage /\ r = spawn_rate stage /\ t < duration stage.
Proof.
  unfold tick. rewrite tick_loop_resolve. unfold resolve.
  destruct (resolve_index (shape_stages self) t) as [i|] eqn:Hidx; [|discriminate].
  destruct (proj1 (resolve_index_Some _ _ _) Hidx) as (stage & Hi & Hlt & _).
  rewrite Hi. simpl. intros [= <- <-]. exists i, stage. repeat split; assumption.
Qed.

(** The return position does not move back when the run time grows. *)
Lemma resolve_index_le (table : list Stage) (t1 t2 : Q) (i1 i2 : nat) :
  t1 <= t2 ->
  resolve_index table t1 = Some i1 -> resolve_index table t2 = Some i2 ->
  (i1 <= i2)%nat.
Proof.
  intros Hle H1 H2.
  apply resolve_index_Some in H1. destruct H1 as (s1 & Hs1 & Hlt1 & Hbefore1).
  apply resolve_index_Some in H2. destruct H2 as (s2 & Hs2 & Hlt2 & Hbefore2).
  destruct (Nat.le_gt_cases i1 i2) as [Hok|Hgt]; [exact Hok|].
  exfalso. apply (Qlt_not_le t1 (duration s2)).
  - apply Qle_lt_trans with t2; assumption.
  - apply (Hbefore1 i2 s2); [exact Hgt|exact Hs2].
Qed.

Lemma sorted_users_lookup (table : list Stage) (i j : nat) (a b : Stage) :
  StronglySorted (fun x y => (users x <= users y)%Z) table -> (i < j)%nat ->
  table !! i = Some a -> table !! j = Some b -> (users a <= users b)%Z.
Proof.
  intros Hsorted. revert i j.
  induction Hsorted as [|head rest Hrest IH Hall]; intros i j Hij Ha Hb.
  - discriminate.
  - destruct j as [|j]; [lia|]. simpl in Hb. destruct i as [|i]; simpl in Ha.
    + injection Ha as <-.
      rewrite List.Forall_forall in Hall. apply Hall.
      apply list_elem_of_In. eapply list_elem_of_lookup_2. exact Hb.
    + apply (IH i j); [lia|exact Ha|exact Hb].
Qed.

End ScanFacts.

(** X1.  Whatever [tick] returns is the user count and spawn rate of
    one entry of the table, and that entry's boundary is strictly
    greater than the run time. *)
Theorem tick_returns_table_entry (self : StagesShape) (t : Q) (u : Z) (r : Q) :
  tick self t = Some (u, r) ->
  exists stage,
    stage ∈ shape_stages self /\
    u = users stage /\ r = spawn_rate stage /\ t < duration stage.
Proof.
  intros H. destruct (tick_Some_index self t u r H) as (i & stage & _ & Hi & Hu & Hr & Hlt).
  exists stage. split; [|auto]. eapply list_elem_of_lookup_2. exact Hi.
Qed.

Lemma tick_returns_table_entry_witness :
  exists stage,
    stage ∈ shape_stages (mkShape stages) /\
    8%Z = users stage /\ 2 = spawn_rate stage /\ 400 < duration stage.
Proof.
  apply (tick_returns_table_entry (mkShape stages) 400 8 2). reflexivity.
Defined.

(** X2.  [tick] returns [None] only when every boundary of the table
    is at or below the run time: the scan never ends a test while a
    stage is still open. *)
Theorem tick_None_only_past_all (self : StagesShape) (t : Q) :
  tick self t = None ->
  forall stage, stage ∈ shape_stages self -> duration stage <= t.
Proof.
  intros H. apply tick_None in H. apply resolve_index_None. exact H.
Qed.

Lemma tick_None_only_past_all_witness :
  tick (mkShape stages) 1200 = None /\ duration (mkStage 720 12 2) <= 1200.
Proof.
  assert (Hnone : tick (mkShape stages) 1200 = None) by reflexivity.
  split; [exact Hnone|].
  apply (tick_None_only_past_all (mkShape stages) 1200 Hnone).
  simpl. unfold stages. do 5 apply list_elem_of_further. apply list_elem_of_here.
Defined.

(** X3.  On a table made of two parts, [tick] answers from the first
    part whenever that part alone would answer, and from the second
    part otherwise: appending stages never changes an earlier answer. *)
Theorem tick_app (front back : list Stage) (t : Q) :
  tick (mkShape (front ++ back)) t
  = match tick (mkShape front) t with
    | Some data => Some data
    | None => tick (mkShape back) t
    end.
Proof.
  unfold tick. simpl. induction front as [|stage rest IH]; simpl; [reflexivity|].
  destruct (Qltb t (duration stage)); [reflexivity|exact IH].
Qed.

(** X4.  An entry whose boundary is not above the boundary of some
    earlier entry is never the one the scan returns from, at any run
    time. *)
Theorem shadowed_stage_unreachable (table : list Stage) (i j : nat)
    (a b : Stage) (t : Q) :
  (i < j)%nat -> table !! i = Some a -> table !! j = Some b ->
  duration b <= duration a ->
  resolve_index table t <> Some j.
Proof.
  intros Hij Ha Hb Hle Hidx.
  apply resolve_index_Some in Hidx. destruct Hidx as (stage & Hj & Hlt & Hbefore).
  rewrite Hb in Hj. injection Hj as <-.
  apply (Qlt_not_le _ _ Hlt).
  apply Qle_trans with (duration a); [exact Hle|].
  apply (Hbefore i a); assumption.
Qed.

Lemma shadowed_stage_unreachable_witness :
  resolve_index lengths_table 90 <> Some 2%nat.
Proof.
  apply (shadowed_stage_unreachable lengths_table 0 2 (mkStage 120 2 2) (mkStage 60 6 2) 90);
    [lia|reflexivity|reflexivity|discriminate].
Defined.

(** X5.  The schedule of the shipped table: below 120 seconds 2 users;
    in the [k]-th window of 120 seconds, for [k] from 1 to 9,
    [2 (k + 1)] users; from 1200 seconds on, [None].  The spawn rate
    is 2 throughout. *)
Theorem stages_schedule (t : Q) :
  (t < 120 -> tick (mkShape stages) t = Some (2%Z, 2)) /\
  (forall k : Z, (1 <= k <= 9)%Z ->
     120 * inject_Z k <= t -> t < 120 * inject_Z (k + 1) ->
     tick (mkShape stages) t = Some ((2 * (k + 1))%Z, 2)) /\
  (1200 <= t -> tick (mkShape stages) t = None).
Proof.
  unfold tick, stages, shape_stages. split; [|split].
  - intros Hlt. apply (tick_loop_hit (mkStage 120 2 2)). exact Hlt.
  - intros k Hk Hlo Hhi.
    assert (Hcases : (k = 1 \/ k = 2 \/ k = 3 \/ k = 4 \/ k = 5 \/ k = 6 \/ k = 7
                      \/ k = 8 \/ k = 9)%Z) by lia.
    repeat (destruct Hcases as [Hcase|Hcases]); subst k;
      repeat (rewrite tick_loop_skip
                by (eapply Qle_trans; [|exact Hlo]; vm_compute; discriminate));
      (rewrite tick_loop_hit
         by (eapply Qlt_le_trans; [exact Hhi|]; vm_compute; discriminate));
      reflexivity.
  - intros Hge.
    repeat (rewrite tick_loop_skip
              by (eapply Qle_trans; [|exact Hge]; vm_compute; discriminate)).
    reflexivity.
Qed.

Lemma stages_schedule_witness :
  tick (mkShape stages) (1501 # 2) = Some (14%Z, 2).
Proof.
  apply (proj1 (proj2 (stages_schedule (1501 # 2))) 6%Z);
    [lia|vm_compute; discriminate|reflexivity].
Defined.

(** X6.  On a table whose user counts do not decrease from one entry
    to the next, the user count returned by [tick] does not decrease
    as the run time grows. *)
Theorem tick_users_monotone (self : StagesShape) (t1 t2 : Q)
    (u1 u2 : Z) (r1 r2 : Q) :
  StronglySorted (fun x y => (users x <= users y)%Z) (shape_stages self) ->
  t1 <= t2 ->
  tick self t1 = Some (u1, r1) -> tick self t2 = Some (u2, r2) ->
  (u1 <= u2)%Z.
Proof.
  intros Hsorted Hle H1 H2.
  destruct (tick_Some_index self t1 u1 r1 H1) as (i1 & s1 & Hi1 & Hs1 & -> & _ & _).
  destruct (tick_Some_index self t2 u2 r2 H2) as (i2 & s2 & Hi2 & Hs2 & -> & _ & _).
  pose proof (resolve_index_le _ t1 t2 i1 i2 Hle Hi1 Hi2) as Hidx.
  destruct (Nat.eq_dec i1 i2) as [->|Hne].
  - rewrite Hs1 in Hs2. injection Hs2 as <-. lia.
  - apply (sorted_users_lookup (shape_stages self) i1 i2); [exact Hsorted|lia|assumption..].
Qed.

Lemma tick_users_monotone_witness : (2 <= 12)%Z.
Proof.
  apply (tick_users_monotone (mkShape stages) 100 700 2 12 2 2);
    [|discriminate|reflexivity|reflexivity].
  simpl. unfold stages.
  repeat first [ apply SSorted_nil | apply SSorted_cons
               | apply List.Forall_nil | apply List.Forall_cons ];
    simpl; lia.
Defined.

(** * Further properties of the client *)

Section SendFacts.

Variables (self : SageMakerClient) (rt : Runtime).
Variables (endpoint_name use_case model_name : string) (model_count : Z).
Variable fired : list (gmap string PyVal).

(** The event that [send] fires, from the outcome of the [try] body. *)
Lemma send_unfold :
  send self rt endpoint_name use_case model_name model_count fired
  = let stamp meta :=
      <["response_time" := elapsed_ms (perf_counter rt 0) (perf_counter rt 1)]> meta in
    let request_meta := request_meta_init model_name model_count (time_time rt) in
    match invoke self rt endpoint_name model_name model_count with
    | Ok _ => (Ok tt, fired ++ [stamp request_meta])
    | Raise e =>
        if is_Exception e
        then (Ok tt, fired ++ [stamp (<["exception" := VExc e]> request_meta)])
        else (Raise e, fired)
    end.
Proof. reflexivity. Qed.

(** The two ways out of [send]. *)
Lemma send_cases :
  (exists meta,
     send self rt endpoint_name use_case model_name model_count fired
     = (Ok tt, fired ++ [meta]) /\
     meta !! "name" = Some (VStr model_name)) \/
  (exists e,
     is_Exception e = false /\
     invoke self rt endpoint_name model_name model_count = Raise e /\
     send self rt endpoint_name use_case model_name model_count fired
     = (Raise e, fired)).
Proof.
  rewrite send_unfold. cbv zeta.
  destruct (invoke self rt endpoint_name model_name model_count) as [response|e] eqn:Hinv.
  - left. eexists. split; [reflexivity|].
    unfold request_meta_init. by simplify_map_eq.
  - destruct (is_Exception e) eqn:Hcls.
    + left. eexists. split; [reflexivity|].
      unfold request_meta_init. by simplify_map_eq.
    + right. exists e. auto.
Qed.

End SendFacts.

Section Strings.

Lemma list_ascii_of_string_append (s t : string) :
  String.list_ascii_of_string (s +:+ t) = String.list_ascii_of_string s ++ String.list_ascii_of_string t.
Proof.
  induction s as [|c s IH]; simpl; [reflexivity|]. rewrite IH. reflexivity.
Qed.

Lemma list_ascii_of_string_inj (s t : string) :
  String.list_ascii_of_string s = String.list_ascii_of_string t -> s = t.
Proof.
  intros H. rewrite <- (String.string_of_list_ascii_of_string s), H.
  apply String.string_of_list_ascii_of_string.
Qed.

Lemma string_append_inv_tail (s1 s2 t : string) : s1 +:+ t = s2 +:+ t -> s1 = s2.
Proof.
  intros H. apply list_ascii_of_string_inj.
  apply (f_equal String.list_ascii_of_string) in H.
  rewrite !list_ascii_of_string_append in H.
  exact (app_inv_tail _ _ _ H).
Qed.

Lemma string_append_inv_head (s t1 t2 : string) : s +:+ t1 = s +:+ t2 -> t1 = t2.
Proof.
  induction s as [|c s IH]; simpl; [auto|]. intros [= H]. auto.
Qed.

End Strings.

Section Floats.

Lemma round_half_even_nonneg (x : Q) : 0 <= x -> (0 <= round_half_even x)%Z.
Proof.
  intros Hx. unfold round_half_even.
  assert (Hf : (0 <= Qfloor x)%Z).
  { change 0%Z with (Qfloor 0). apply Qfloor_resp_le. exact Hx. }
  destruct (Qcompare (x - inject_Z (Qfloor x)) (1 # 2)); [|lia|lia].
  destruct (Z.even (Qfloor x)); lia.
Qed.

Lemma round_magnitude_nonneg (x y : Q) :
  0 <= x -> round_magnitude x = Some y -> 0 <= y.
Proof.
  intros Hx. unfold round_magnitude.
  set (e := Z.max (Qlog2 x - 52) (-1074)).
  destruct (Qle_bool (2 ^ 1024) _); [discriminate|]. intros [= <-].
  rewrite Qred_correct.
  assert (Hpow : 0 < 2 ^ e) by (apply Qpower_0_lt; reflexivity).
  apply Qmult_le_0_compat; [|apply Qlt_le_weak; exact Hpow].
  change 0 with (inject_Z 0). rewrite <- Zle_Qle.
  apply round_half_even_nonneg.
  apply Qmult_le_0_compat; [exact Hx|].
  apply Qlt_le_weak. apply Qinv_lt_0_compat. exact Hpow.
Qed.

Lemma round_double_nonneg (x : Q) :
  0 <= x -> float_nonneg (float_val (round_double x)).
Proof.
  intros Hx. unfold round_double.
  destruct x as [n d]. simpl Qnum. destruct n as [|n|n].
  - simpl. apply Qle_refl.
  - destruct (round_magnitude (Z.pos n # d)) as [y|] eqn:Hy; simpl; [|reflexivity].
    exact (round_magnitude_nonneg _ _ Hx Hy).
  - exfalso. unfold Qle in Hx. simpl in Hx. lia.
Qed.

(** The elapsed time is not negative when the counter did not go
    back. *)
Lemma elapsed_ms_nonneg (start now : Q) :
  start <= now -> float_nonneg (elapsed_ms start now).
Proof.
  intros Hle. unfold elapsed_ms, float_sub.
  assert (Hdiff : 0 <= now - start).
  { unfold Qminus. rewrite <- (Qplus_opp_r start).
    apply Qplus_le_compat; [exact Hle|apply Qle_refl]. }
  pose proof (round_double_nonneg _ Hdiff) as Hsub.
  destruct (round_double (now - start)) as [q|negative]; simpl in Hsub |- *.
  - apply round_double_nonneg.
    apply Qmult_le_0_compat; [exact Hsub|discriminate].
  - exact Hsub.
Qed.

End Floats.

(** X7.  [send] has two ways out: it returns after appending exactly
    one event to the events fired so far, or it lets through an
    exception that is not an instance of [Exception] and was raised by
    the endpoint invocation, leaving the fired events as they were. *)
Theorem send_outcomes (self : SageMakerClient) (rt : Runtime)
    (endpoint_name use_case model_name : string) (model_count : Z)
    (fired : list (gmap string PyVal)) :
  (exists meta,
     send self rt endpoint_name use_case model_name model_count fired
     = (Ok tt, fired ++ [meta])) \/
  (exists e,
     is_Exception e = false /\
     (exists body ctype target,
        invoke_endpoint (client self) endpoint_name body ctype target = Raise e) /\
     send self rt endpoint_name use_case model_name model_count fired
     = (Raise e, fired)).
Proof.
  destruct (send_cases self rt endpoint_name use_case model_name model_count fired)
    as [(meta & Hsend & _)|(e & Hcls & Hinv & Hsend)].
  - left. exists meta. exact Hsend.
  - right. exists e. repeat split; [exact Hcls| |exact Hsend].
    destruct (invoke_Raise _ _ _ _ _ _ Hinv) as [->|Hep]; [discriminate Hcls|exact Hep].
Qed.

(** X8.  Every event that [send] fires carries the request type
    ["InvokeEndpoint"], the model name, the wall-clock start time, the
    model count, an empty context, and always response [None] with
    response length 0, whatever the endpoint answered; its response
    time is the counter difference times 1000 as computed in doubles,
    which is not negative when the counter did not go back; it has
    these nine keys and no other. *)
Theorem send_event_fields (self : SageMakerClient) (rt : Runtime)
    (endpoint_name use_case model_name : string) (model_count : Z)
    (fired : list (gmap string PyVal)) (meta : gmap string PyVal) :
  (send self rt endpoint_name use_case model_name model_count fired).2
  = fired ++ [meta] ->
  meta !! "request_type" = Some (VStr "InvokeEndpoint") /\
  meta !! "name" = Some (VStr model_name) /\
  meta !! "start_time" = Some (VFloat (time_time rt)) /\
  meta !! "num_models" = Some (VInt model_count) /\
  meta !! "response_length" = Some (VInt 0) /\
  meta !! "response" = Some VNone /\
  meta !! "context" = Some VEmptyDict /\
  meta !! "response_time"
    = Some (elapsed_ms (perf_counter rt 0) (perf_counter rt 1)) /\
  (perf_counter rt 0 <= perf_counter rt 1 ->
   float_nonneg (elapsed_ms (perf_counter rt 0) (perf_counter rt 1))) /\
  dom meta
    = list_to_set [ "request_type"; "name"; "start_time"; "num_models";
                    "response_length"; "response"; "context"; "exception";
                    "response_time" ].
Proof.
  rewrite send_unfold. cbv zeta.
  destruct (invoke self rt endpoint_name model_name model_count) as [response|e].
  - simpl. intros H. apply app_inv_head in H. injection H as <-.
    unfold request_meta_init.
    repeat (split; [by simplify_map_eq|]).
    split; [apply elapsed_ms_nonneg|].
    rewrite !dom_insert_L, dom_empty_L. set_solver.
  - destruct (is_Exception e); simpl; intros H.
    + apply app_inv_head in H. injection H as <-.
      unfold request_meta_init.
      repeat (split; [by simplify_map_eq|]).
      split; [apply elapsed_ms_nonneg|].
      rewrite !dom_insert_L, dom_empty_L. set_solver.
    + exfalso. apply (f_equal length) in H. rewrite length_app in H. simpl in H. lia.
Qed.

Lemma send_event_fields_witness :
  exists meta : gmap string PyVal,
    meta !! "response" = Some VNone /\
    meta !! "response_length" = Some (VInt 0) /\
    meta !! "name" = Some (VStr "vgg16") /\
    meta !! "response_time" = Some (VFloat (7036874417766399 # 35184372088832)).
Proof.
  pose (c := stub_client (Ok (VStr "a long response body"))).
  pose (meta := <["response_time" := elapsed_ms (perf_counter tenths_runtime 0)
                                       (perf_counter tenths_runtime 1)]>
                  (request_meta_init "vgg16" 5 (time_time tenths_runtime))).
  exists meta.
  destruct (send_event_fields c tenths_runtime "mme-cv-benchmark-pt" "cv" "vgg16" 5 [] meta
              eq_refl) as (_ & Hname & _ & _ & Hlen & Hresp & _ & Htime & _).
  repeat split; assumption.
Defined.

(** X9.  With a model count of at least one, the [try] body of [send]
    makes exactly one call on the endpoint: on the given endpoint name,
    with the client's payload as body and its content type, and with
    the target ["<model_name>-v<k>.tar.gz"] for some [k] from 0 to
    [model_count - 1]; the outcome of the body is the answer to that
    call. *)
Theorem invoke_target_in_range (self : SageMakerClient) (rt : Runtime)
    (endpoint_name model_name : string) (model_count : Z) :
  (1 <= model_count)%Z ->
  exists k : Z,
    (0 <= k < model_count)%Z /\
    let call :=
      mkCall endpoint_name (payload self) (content_type self)
        (target_model model_name k) in
    invoke_traced self rt endpoint_name model_name model_count
    = (answer (client self) call, [call]).
Proof.
  intros Hcount. exists (0 + random_draw rt mod (model_count - 1 - 0 + 1))%Z. split.
  - pose proof (Z.mod_pos_bound (random_draw rt) (model_count - 1 - 0 + 1)) as Hmod. lia.
  - unfold invoke_traced, randint.
    destruct (model_count - 1 <? 0)%Z eqn:E; [apply Z.ltb_lt in E; lia|reflexivity].
Qed.

Lemma invoke_target_in_range_witness :
  exists k : Z,
    (0 <= k < 5)%Z /\
    invoke_traced (mkSageMakerClient (mkSession (fun _ => Ok echo_client)) (VStr "{}")
                     echo_client (VStr "application/octet-stream"))
      stub_runtime "mme-cv-benchmark-pt" "vgg16" 5
    = (Ok (VStr (target_model "vgg16" k)),
       [mkCall "mme-cv-benchmark-pt" (VStr "{}") (VStr "application/octet-stream")
          (target_model "vgg16" k)]).
Proof.
  apply (invoke_target_in_range
           (mkSageMakerClient (mkSession (fun _ => Ok echo_client)) (VStr "{}")
              echo_client (VStr "application/octet-stream"))
           stub_runtime "mme-cv-benchmark-pt" "vgg16" 5).
  lia.
Defined.

(** X10.  With a model count below one, the [try] body of [send] makes
    no call on the endpoint: whatever client [send] is called on, it
    returns after firing the same single event, whose exception is the
    [ValueError] raised by [random.randint]. *)
Theorem send_invalid_count_skips_endpoint (self other : SageMakerClient)
    (rt : Runtime) (endpoint_name use_case model_name : string)
    (model_count : Z) (fired : list (gmap string PyVal)) :
  (model_count <= 0)%Z ->
  (invoke_traced self rt endpoint_name model_name model_count).2 = [] /\
  send self rt endpoint_name use_case model_name model_count fired
  = send other rt endpoint_name use_case model_name model_count fired /\
  exists meta e,
    send self rt endpoint_name use_case model_name model_count fired
    = (Ok tt, fired ++ [meta]) /\
    meta !! "exception" = Some (VExc e) /\
    exc_class e = ValueError.
Proof.
  intros Hle. split.
  - rewrite (invoke_traced_invalid_model_count _ _ _ _ _ Hle). reflexivity.
  - rewrite !send_unfold. cbv zeta.
    rewrite !(invoke_invalid_model_count _ _ _ _ _ Hle). simpl.
    split; [reflexivity|]. eexists. eexists. split; [reflexivity|].
    split; [by simplify_map_eq|reflexivity].
Qed.

Lemma send_invalid_count_skips_endpoint_witness :
  (invoke_traced (stub_client (Ok VNone)) stub_runtime "mme-cv-benchmark-pt" "vgg16" 0).2
  = [] /\
  send (stub_client (Ok VNone)) stub_runtime "mme-cv-benchmark-pt" "cv" "vgg16" 0 []
  = send (stub_client (Raise (mkExc KeyboardInterrupt ""))) stub_runtime
      "mme-cv-benchmark-pt" "cv" "vgg16" 0 [].
Proof.
  destruct (send_invalid_count_skips_endpoint (stub_client (Ok VNone))
              (stub_client (Raise (mkExc KeyboardInterrupt ""))) stub_runtime
              "mme-cv-benchmark-pt" "cv" "vgg16" 0 []) as (Htrace & Hsame & _);
    [lia|].
  split; assumption.
Defined.

(** X11.  The target name determines the variant number and the model
    name: two targets built from the same model name are equal only for
    equal numbers, and two targets built with the same number are equal
    only for equal model names. *)
Theorem target_model_inj (model_name model_name' : string) (k k' : Z) :
  (target_model model_name k = target_model model_name k' -> k = k') /\
  (target_model model_name k = target_model model_name' k -> model_name = model_name').
Proof.
  unfold target_model. split; intros H.
  - apply string_append_inv_head in H. apply string_append_inv_head in H.
    apply string_append_inv_tail in H. exact (pretty_Z_inj _ _ H).
  - exact (string_append_inv_tail _ _ _ H).
Qed.

Lemma target_model_inj_witness :
  target_model "vgg16" 3 = "vgg16-v3.tar.gz" /\ (3 = 3)%Z /\ "vgg16" = "vgg16".
Proof.
  split; [reflexivity|]. split.
  - exact (proj1 (target_model_inj "vgg16" "vgg16" 3 3) eq_refl).
  - exact (proj2 (target_model_inj "vgg16" "vgg16" 3 3) eq_refl).
Defined.

(** * Further properties of the users *)

Section UserFacts.

(** A client is built exactly when the session, the two globals and
    the runtime client are all there. *)
Lemma SageMakerClient_init_Ok (boto3_Session : Result Session)
    (globals : gmap string PyVal) (c : SageMakerClient) :
  SageMakerClient_init boto3_Session globals = Ok c ->
  exists s p bc ct,
    boto3_Session = Ok s /\ globals !! "payload" = Some p /\
    session_client s "sagemaker-runtime" = Ok bc /\
    globals !! "content_type" = Some ct /\
    c = mkSageMakerClient s p bc ct.
Proof.
  unfold SageMakerClient_init, globals_getitem, global_name.
  destruct boto3_Session as [s|e]; simpl; [|discriminate].
  destruct (globals !! "payload") as [p|] eqn:Hp; simpl; [|discriminate].
  destruct (session_client s "sagemaker-runtime") as [bc|e] eqn:Hbc; simpl; [|discriminate].
  destruct (globals !! "content_type") as [ct|] eqn:Hct; simpl; [|discriminate].
  intros [= <-]. exists s, p, bc, ct. repeat split; assumption.
Qed.

(** One call of the task either returns with one more event, named
    after the model, or lets an exception through. *)
Lemma send_request_cases (self : SimpleSendRequest) (rt : Runtime)
    (fired : list (gmap string PyVal)) :
  (exists meta,
     send_request self rt fired = (Ok tt, fired ++ [meta]) /\
     meta !! "name" = Some (VStr (opt_model_name (parsed_options self)))) \/
  (exists e body ctype target,
     is_Exception e = false /\
     invoke_endpoint (client (user_client self))
       (opt_endpoint_name (parsed_options self)) body ctype target = Raise e /\
     send_request self rt fired = (Raise e, fired)).
Proof.
  unfold send_request.
  destruct (send_cases (user_client self) rt (opt_endpoint_name (parsed_options self))
              (opt_use_case (parsed_options self)) (opt_model_name (parsed_options self))
              (opt_model_count (parsed_options self)) fired)
    as [(meta & Hsend & Hname)|(e & Hcls & Hinv & Hsend)].
  - left. exists meta. auto.
  - right. destruct (invoke_Raise _ _ _ _ _ _ Hinv) as [->|(body & ctype & target & Hep)];
      [discriminate Hcls|].
    exists e, body, ctype, target. auto.
Qed.

(** With a model count of at least one, the outcome of the [try]
    body is the answer to the call built from the arguments. *)
Lemma invoke_valid_model_count (self : SageMakerClient) (rt : Runtime)
    (endpoint_name model_name : string) (model_count : Z) :
  (1 <= model_count)%Z ->
  exists k : Z,
    (0 <= k < model_count)%Z /\
    invoke self rt endpoint_name model_name model_count
    = answer (client self)
        (mkCall endpoint_name (payload self) (content_type self)
           (target_model model_name k)).
Proof.
  intros Hcount. exists (0 + random_draw rt mod (model_count - 1 - 0 + 1))%Z. split.
  - pose proof (Z.mod_pos_bound (random_draw rt) (model_count - 1 - 0 + 1)) as Hmod. lia.
  - unfold invoke, invoke_traced, randint.
    destruct (model_count - 1 <? 0)%Z eqn:E; [apply Z.ltb_lt in E; lia|reflexivity].
Qed.

End UserFacts.

(** X12.  A user built from its options, with a readable payload file,
    a working session and the [content_type] global in place, binds the
    [payload] global to the file text, and what its task does is
    decided by the answer to one call: on the endpoint named by the
    options, with the text of that file as body, the value of the
    [content_type] global as content type, and a target built from the
    model-name option and a number below the model-count option.  When
    that answer is a return or an instance of [Exception], the task
    returns after firing one event that carries the model name, the
    model count and the caught exception; otherwise the exception
    leaves the task and no event is fired. *)
Theorem user_request_uses_options (options : ParsedOptions) (u : unit)
    (read_text : string -> Result string) (s : Session) (bc : BotoClient)
    (globals : gmap string PyVal) (ct : PyVal) (text : string) (rt : Runtime)
    (fired : list (gmap string PyVal)) :
  read_text (opt_payload options) = Ok text ->
  session_client s "sagemaker-runtime" = Ok bc ->
  globals !! "content_type" = Some ct ->
  (1 <= opt_model_count options)%Z ->
  exists (self : SimpleSendRequest) (k : Z),
    SimpleSendRequest_init options (Ok u) read_text (Ok s) globals
    = (Ok self, <["payload" := VStr text]> globals) /\
    (0 <= k < opt_model_count options)%Z /\
    let call :=
      mkCall (opt_endpoint_name options) (VStr text) ct
        (target_model (opt_model_name options) k) in
    let fires (exception : PyVal) :=
      exists meta : gmap string PyVal,
        send_request self rt fired = (Ok tt, fired ++ [meta]) /\
        meta !! "name" = Some (VStr (opt_model_name options)) /\
        meta !! "num_models" = Some (VInt (opt_model_count options)) /\
        meta !! "exception" = Some exception in
    match answer bc call with
    | Ok _ => fires VNone
    | Raise e =>
        if is_Exception e then fires (VExc e)
        else send_request self rt fired = (Raise e, fired)
    end.
Proof.
  intros Hread Hclient Hct Hcount.
  pose (c := mkSageMakerClient s (VStr text) bc ct).
  destruct (invoke_valid_model_count c rt (opt_endpoint_name options)
              (opt_model_name options) (opt_model_count options) Hcount)
    as (k & Hk & Hinv).
  exists (mkUser options c), k. split; [|split; [exact Hk|]].
  - unfold SimpleSendRequest_init, SageMakerUser_init. rewrite Hread. simpl.
    unfold SageMakerClient_init, globals_getitem, global_name. simpl.
    rewrite lookup_insert_eq. simpl. rewrite Hclient. simpl.
    rewrite lookup_insert_ne by done. rewrite Hct. reflexivity.
  - cbv zeta. unfold send_request. cbn [parsed_options user_client].
    rewrite send_unfold. cbv zeta. rewrite Hinv. cbn [client payload content_type c].
    destruct (answer bc _) as [response|e].
    + eexists. split; [reflexivity|]. unfold request_meta_init.
      repeat split; by simplify_map_eq.
    + destruct (is_Exception e); [|reflexivity].
      eexists. split; [reflexivity|]. unfold request_meta_init.
      repeat split; by simplify_map_eq.
Qed.

Lemma user_request_uses_options_witness :
  exists (self : SimpleSendRequest) (k : Z),
    SimpleSendRequest_init (default_options "cv" "payload.json") (Ok tt)
      (fun _ => Ok "{}") (Ok (mkSession (fun _ => Ok echo_client))) module_globals
    = (Ok self, <["payload" := VStr "{}"]> module_globals) /\
    (0 <= k < 5)%Z /\
    exists meta : gmap string PyVal,
      send_request self stub_runtime [] = (Ok tt, [] ++ [meta]) /\
      meta !! "name" = Some (VStr "vgg16") /\
      meta !! "num_models" = Some (VInt 5) /\
      meta !! "exception" = Some VNone.
Proof.
  apply (user_request_uses_options (default_options "cv" "payload.json") tt
           (fun _ => Ok "{}") (mkSession (fun _ => Ok echo_client)) echo_client
           module_globals (VStr "application/octet-stream") "{}" stub_runtime []);
    [reflexivity|reflexivity|vm_compute; reflexivity|simpl; lia].
Defined.

(** X13.  The [payload] global is shared and the last writer wins:
    when two users are built one after the other, each client keeps
    the text of its own payload file, the global ends up bound to the
    second text, and a client built directly afterwards takes the
    second text. *)
Theorem payload_last_writer_wins (u1 u2 : unit) (text1 text2 : string)
    (session1 session2 : Result Session) (globals : gmap string PyVal)
    (c1 c2 : SageMakerClient) :
  let out1 := SageMakerUser_init (Ok u1) (Ok text1) session1 globals in
  let out2 := SageMakerUser_init (Ok u2) (Ok text2) session2 out1.2 in
  out1.1 = Ok c1 -> out2.1 = Ok c2 ->
  payload c1 = VStr text1 /\
  payload c2 = VStr text2 /\
  out2.2 !! "payload" = Some (VStr text2) /\
  forall session3 c3,
    SageMakerClient_init session3 out2.2 = Ok c3 -> payload c3 = VStr text2.
Proof.
  simpl. intros H1 H2.
  apply SageMakerClient_init_Ok in H1. destruct H1 as (s & p & bc & ct & _ & Hp & _ & _ & ->).
  apply SageMakerClient_init_Ok in H2. destruct H2 as (s' & p' & bc' & ct' & _ & Hp' & _ & _ & ->).
  rewrite lookup_insert_eq in Hp, Hp'. injection Hp as <-. injection Hp' as <-.
  repeat split; [apply lookup_insert_eq|].
  intros session3 c3 H3.
  apply SageMakerClient_init_Ok in H3. destruct H3 as (s3 & p3 & bc3 & ct3 & _ & Hp3 & _ & _ & ->).
  rewrite lookup_insert_eq in Hp3. injection Hp3 as <-. reflexivity.
Qed.

Lemma payload_last_writer_wins_witness :
  exists c1 c2 : SageMakerClient,
    payload c1 = VStr "first" /\ payload c2 = VStr "second".
Proof.
  pose (sess := @Ok Session (mkSession (fun _ => Ok echo_client))).
  pose (c := fun text => mkSageMakerClient (mkSession (fun _ => Ok echo_client))
                           (VStr text) echo_client (VStr "application/octet-stream")).
  exists (c "first"), (c "second").
  destruct (payload_last_writer_wins tt tt "first" "second" sess sess module_globals
              (c "first") (c "second")) as (H1 & H2 & _).
  - vm_compute. reflexivity.
  - vm_compute. reflexivity.
  - split; assumption.
Defined.

(** X14.  [SageMakerUser.__init__] touches no global other than
    [payload], and it leaves the globals exactly as they were unless
    the base constructor returned and the payload file was read, in
    which case [payload] is bound to the file text even if building the
    client then fails. *)
Theorem SageMakerUser_init_frame (User_init : Result unit)
    (read_payload : Result string) (boto3_Session : Result Session)
    (globals : gmap string PyVal) :
  let out := SageMakerUser_init User_init read_payload boto3_Session globals in
  (forall key, key <> "payload" -> out.2 !! key = globals !! key) /\
  ((exists e, out.1 = Raise e /\ out.2 = globals /\
              (User_init = Raise e \/ read_payload = Raise e)) \/
   (exists u text, User_init = Ok u /\ read_payload = Ok text /\
                   out.2 = <["payload" := VStr text]> globals)).
Proof.
  unfold SageMakerUser_init.
  destruct User_init as [u|e]; simpl.
  - destruct read_payload as [text|e]; simpl.
    + split; [intros key Hkey; by rewrite lookup_insert_ne|].
      right. exists u, text. auto.
    + split; [reflexivity|]. left. exists e. auto.
  - split; [reflexivity|]. left. exists e. auto.
Qed.

Lemma SageMakerUser_init_frame_witness :
  (SageMakerUser_init (Ok tt) (Ok "{}") (Raise (mkExc OSError "no network"))
     module_globals).2 !! "content_type"
  = module_globals !! "content_type".
Proof.
  apply (proj1 (SageMakerUser_init_frame (Ok tt) (Ok "{}")
                  (Raise (mkExc OSError "no network")) module_globals)).
  discriminate.
Defined.

(** X15.  When the endpoint invocation raises nothing outside the
    [Exception] hierarchy, any number of consecutive calls of the task
    all return, and they append exactly one event per call, each named
    after the model-name option, after the events fired before. *)
Theorem send_requests_one_event_each (self : SimpleSendRequest)
    (rts : list Runtime) (fired : list (gmap string PyVal)) :
  (forall name body ctype target e,
     invoke_endpoint (client (user_client self)) name body ctype target = Raise e ->
     is_Exception e = true) ->
  exists metas : list (gmap string PyVal),
    send_requests self rts fired = (Ok tt, fired ++ metas) /\
    length metas = length rts /\
    forall meta, meta ∈ metas ->
      meta !! "name" = Some (VStr (opt_model_name (parsed_options self))).
Proof.
  intros Hexc. revert fired. induction rts as [|rt later IH]; intros fired.
  - exists []. rewrite app_nil_r. repeat split. intros meta Hin. inversion Hin.
  - cbn [send_requests].
    destruct (send_request_cases self rt fired)
      as [(meta & Hsend & Hname)|(e & body & ctype & target & Hcls & Hep & _)].
    + rewrite Hsend. destruct (IH (fired ++ [meta])) as (metas & Hrest & Hlen & Hnames).
      exists (meta :: metas). rewrite Hrest, <- app_assoc. simpl.
      repeat split; [lia|]. intros m Hin.
      apply elem_of_cons in Hin. destruct Hin as [->|Hin]; [exact Hname|auto].
    + rewrite (Hexc _ _ _ _ _ Hep) in Hcls. discriminate Hcls.
Qed.

Lemma send_requests_one_event_each_witness :
  exists metas : list (gmap string PyVal),
    send_requests
      (mkUser (default_options "cv" "payload.json")
              (stub_client (Raise (mkExc ClientError "ModelError"))))
      [stub_runtime; stub_runtime; stub_runtime] []
    = (Ok tt, [] ++ metas) /\
    length metas = 3%nat /\
    forall meta, meta ∈ metas -> meta !! "name" = Some (VStr "vgg16").
Proof.
  apply (send_requests_one_event_each
           (mkUser (default_options "cv" "payload.json")
                   (stub_client (Raise (mkExc ClientError "ModelError"))))
           [stub_runtime; stub_runtime; stub_runtime] []).
  simpl. intros _ _ _ _ e [= <-]. reflexivity.
Defined.
